(** * The CodingExercise widget (src/theme.config.tsx, lines 42-132)

    A shallow embedding of the one interactive component of the site: a React
    function component with three [useState] cells ([code], [isGrading],
    [feedback]), an [async] click handler [handleSubmit] with two suspension
    points ([await fetch(...)] and [await response.json()]), and a render
    function.  The handler is embedded as a resumption (a tree of setter calls
    and awaits), the browser's event loop as a step function over a mounted
    instance, and the JSX as a function from the state to a small view record. *)

From Stdlib Require Import String Ascii List ZArith Lia Bool PeanoNat.
Import ListNotations.
Open Scope string_scope.

#[local] Set Warnings "-register-all".

(** ** The JavaScript values the component touches *)

Module JS.

(** What [JSON.parse] (inside [response.json()]) can produce.  Numbers are
    kept to the integer-valued ones; an object keeps its members in source
    order, duplicates included. *)
Inductive json : Type :=
| JNull
| JBool (b : bool)
| JNum (n : Z)
| JStr (s : string)
| JArr (items : list json)
| JObj (members : list (string * json)).

(** A value held in a state cell: a parsed JSON value, or [undefined]
    (reading a property that is not there). *)
Inductive value : Type :=
| Undefined
| Of (j : json).

(** ToBoolean: [undefined], [null], [false], [0] and the empty string are
    falsy, everything else (arrays and objects included) is truthy. *)
Definition truthy (v : value) : bool :=
  match v with
  | Undefined => false
  | Of JNull => false
  | Of (JBool b) => b
  | Of (JNum n) => negb (n =? 0)%Z
  | Of (JStr s) => negb (s =? EmptyString)
  | Of (JArr _) => true
  | Of (JObj _) => true
  end.

(** The member [JSON.parse] keeps for a key: the last one wins. *)
Fixpoint last_member (key : string) (members : list (string * json))
  : option json :=
  match members with
  | [] => None
  | (k, v) :: rest =>
      match last_member key rest with
      | Some w => Some w
      | None => if k =? key then Some v else None
      end
  end.

(** [result.feedback], the property read of line 69.  On [null] it throws a
    TypeError ([None]); on a primitive or an array the property is absent
    and the read gives [undefined]; on an object it gives the member, or
    [undefined]. *)
Definition get_feedback (result : json) : option value :=
  match result with
  | JNull => None
  | JObj members =>
      match last_member "feedback" members with
      | Some v => Some (Of v)
      | None => Some Undefined
      end
  | _ => Some Undefined
  end.

(** QuoteJSONString of ECMA-262 on a well-formed string, held here as its
    UTF-8 bytes: the quote, the backslash and the control characters are
    escaped, every other byte is copied. *)
Definition dquote : string := String (ascii_of_nat 34) EmptyString.

Definition hex_digit (n : nat) : ascii :=
  nth n (list_ascii_of_string "0123456789abcdef") "0"%char.

Definition quote_char (c : ascii) : string :=
  let n := nat_of_ascii c in
  if (n =? 8)%nat then "\b"
  else if (n =? 9)%nat then "\t"
  else if (n =? 10)%nat then "\n"
  else if (n =? 12)%nat then "\f"
  else if (n =? 13)%nat then "\r"
  else if (n =? 34)%nat then "\" ++ dquote
  else if (n =? 92)%nat then "\\"
  else if (n <? 32)%nat then
    "\u00" ++ String (hex_digit (n / 16)) (String (hex_digit (n mod 16)) EmptyString)
  else String c EmptyString.

Fixpoint quote_chars (s : string) : string :=
  match s with
  | EmptyString => EmptyString
  | String c rest => quote_char c ++ quote_chars rest
  end.

Definition QuoteJSONString (s : string) : string :=
  dquote ++ quote_chars s ++ dquote.

(** [JSON.stringify] of an object literal whose members are all strings:
    the members in insertion order, no white space. *)
Fixpoint stringify_members (members : list (string * string)) : string :=
  match members with
  | [] => EmptyString
  | [(k, v)] => QuoteJSONString k ++ ":" ++ QuoteJSONString v
  | (k, v) :: rest =>
      QuoteJSONString k ++ ":" ++ QuoteJSONString v ++ "," ++ stringify_members rest
  end.

Definition JSON_stringify (members : list (string * string)) : string :=
  "{" ++ stringify_members members ++ "}".

End JS.

Import JS.

(** ** Network *)

(** The second argument of [fetch] together with its first (lines 63-67). *)
Record request : Type := {
  url : string;
  method : string;
  body : string;
  headers : list (string * string)
}.

(** A [Response]; the handler never looks at it, only at its body. *)
Record response : Type := { status : Z }.

Definition ok (r : response) : bool :=
  ((200 <=? status r) && (status r <=? 299))%Z.

(** How the promise of [fetch] settles: rejected on a transport error,
    fulfilled with a response otherwise, whatever the status. *)
Inductive fetch_result : Type :=
| NetworkError
| Responded (r : response).

(** How the promise of [response.json()] settles: rejected when the body is
    not JSON text, fulfilled with the parsed value otherwise. *)
Inductive body_result : Type :=
| Malformed
| Parsed (j : json).

(** ** The component's state and the handler *)

(** Calls of the three [useState] setters. *)
Inductive setter : Type :=
| setCode (v : string)
| setIsGrading (b : bool)
| setFeedback (v : value).

(** An [async] function body as a resumption: setter calls run to the next
    [await]; an [await] hands the rest of the body to the event loop. *)
Inductive task : Type :=
| Fulfilled
| Rejected
| Call (s : setter) (next : task)
| AwaitFetch (rq : request) (next : fetch_result -> task)
| AwaitJson (r : response) (next : body_result -> task).

(** Lines 68-70: after [await response.json()]. *)
Definition after_json (b : body_result) : task :=
  match b with
  | Malformed => Rejected
  | Parsed result =>
      match get_feedback result with
      | None => Rejected
      | Some v => Call (setFeedback v) (Call (setIsGrading false) Fulfilled)
      end
  end.

(** Line 68: after [await fetch(...)]. *)
Definition after_fetch (f : fetch_result) : task :=
  match f with
  | NetworkError => Rejected
  | Responded r => AwaitJson r after_json
  end.

Definition grade_request (code lesson correction : string) : request :=
  {| url := "/api/grade";
     method := "POST";
     body := JSON_stringify
               [("code", code); ("lesson", lesson); ("correction", correction)];
     headers := [("Content-Type", "application/json")] |}.

(** Lines 61-71.  [code], [lesson] and [correction] are the bindings of the
    render that created the closure. *)
Definition handleSubmit (code lesson correction : string) : task :=
  Call (setIsGrading true)
    (AwaitFetch (grade_request code lesson correction) after_fetch).

(** The props of lines 52-56; [None] is a prop that was not passed
    ([undefined]), which is when a destructuring default applies. *)
Record Props : Type := {
  initCode : option string;
  lesson : option string;
  correction : option string
}.

Definition or_default (p : option string) (d : string) : string :=
  match p with
  | Some v => v
  | None => d
  end.

(** The three [useState] cells of lines 57-59. *)
Record Cells : Type := {
  code : string;
  isGrading : bool;
  feedback : value
}.

Definition apply_setter (s : setter) (c : Cells) : Cells :=
  match s with
  | setCode v => {| code := v; isGrading := isGrading c; feedback := feedback c |}
  | setIsGrading b => {| code := code c; isGrading := b; feedback := feedback c |}
  | setFeedback v => {| code := code c; isGrading := isGrading c; feedback := v |}
  end.

(** [useState(initCode)], [useState(false)], [useState(EmptyString)] on the
    first render. *)
Definition initial_cells (p : Props) : Cells :=
  {| code := or_default (initCode p) EmptyString;
     isGrading := false;
     feedback := Of (JStr EmptyString) |}.

(** ** The render (lines 73-131) *)

(** What stands in the slot of lines 112-129: [feedback && <div>...</div>] is
    the panel around [<Markdown>{feedback}</Markdown>] when [feedback] is
    truthy, and the falsy value itself otherwise. *)
Inductive slot : Type :=
| Panel (markdown : value)
| Bare (v : value).

Record View : Type := {
  editor_value : string;
  button_disabled : bool;
  button_label : string;
  feedback_slot : slot
}.

Definition render (c : Cells) : View :=
  {| editor_value := code c;
     button_disabled := isGrading c;
     button_label := if isGrading c then "Grading..." else "Submit";
     feedback_slot := if truthy (feedback c) then Panel (feedback c)
                      else Bare (feedback c) |}.

Definition panel_rendered (v : View) : bool :=
  match feedback_slot v with
  | Panel _ => true
  | Bare _ => false
  end.

(** The two states of the widget. *)
Inductive phase : Type := Idle | Submitting.

Definition phase_of (c : Cells) : phase :=
  if isGrading c then Submitting else Idle.

(** ** A mounted instance and the event loop *)

(** A handler parked at an [await]. *)
Inductive suspended : Type :=
| OnFetch (next : fetch_result -> task)
| OnJson (r : response) (next : body_result -> task).

(** What an observer of the instance sees happen, in order. *)
Inductive action : Type :=
| Set_ (s : setter)
| Fetch (rq : request)
| Settle (fulfilled : bool).

Record Instance : Type := {
  props : Props;
  cells : Cells;
  pending : list suspended;
  log : list action
}.

(** [<CodingExercise {...p} />] mounted: nothing in flight, nothing logged. *)
Definition CodingExercise (p : Props) : Instance :=
  {| props := p; cells := initial_cells p; pending := []; log := [] |}.

Definition call (s : setter) (w : Instance) : Instance :=
  {| props := props w; cells := apply_setter s (cells w);
     pending := pending w; log := log w ++ [Set_ s] |}.

Definition note (a : action) (w : Instance) : Instance :=
  {| props := props w; cells := cells w; pending := pending w;
     log := log w ++ [a] |}.

Definition park (s : suspended) (w : Instance) : Instance :=
  {| props := props w; cells := cells w; pending := pending w ++ [s];
     log := log w |}.

(** Runs a handler body up to its next [await] or to its end. *)
Fixpoint run (t : task) (w : Instance) : Instance :=
  match t with
  | Fulfilled => note (Settle true) w
  | Rejected => note (Settle false) w
  | Call s next => run next (call s w)
  | AwaitFetch rq next => park (OnFetch next) (note (Fetch rq) w)
  | AwaitJson r next => park (OnJson r next) w
  end.

Definition remove_nth {A : Type} (i : nat) (l : list A) : list A :=
  firstn i l ++ skipn (S i) l.

Definition unpark (i : nat) (w : Instance) : Instance :=
  {| props := props w; cells := cells w;
     pending := remove_nth i (pending w); log := log w |}.

(** What the event loop can deliver to the instance. *)
Inductive event : Type :=
| Change (v : string)
| Click
| FetchSettled (i : nat) (f : fetch_result)
| BodySettled (i : nat) (b : body_result).

(** One turn of the event loop.
    - [Change]: CodeMirror's [onChange] (line 92) calls [setCode].
    - [Click]: the button carries [disabled={isGrading}] (line 108), and a
      disabled button dispatches no click; otherwise [onClick] (line 97) calls
      the [handleSubmit] of the current render.
    - [FetchSettled i], [BodySettled i]: the promise the [i]-th parked handler
      awaits settles and the handler resumes; [None] when no such handler is
      parked there. *)
Definition step (w : Instance) (e : event) : option Instance :=
  match e with
  | Change v => Some (call (setCode v) w)
  | Click =>
      if button_disabled (render (cells w)) then Some w
      else Some (run (handleSubmit (code (cells w))
                        (or_default (lesson (props w)) EmptyString)
                        (or_default (correction (props w)) EmptyString)) w)
  | FetchSettled i f =>
      match nth_error (pending w) i with
      | Some (OnFetch next) => Some (run (next f) (unpark i w))
      | _ => None
      end
  | BodySettled i b =>
      match nth_error (pending w) i with
      | Some (OnJson _ next) => Some (run (next b) (unpark i w))
      | _ => None
      end
  end.

Fixpoint run_events (w : Instance) (es : list event) : option Instance :=
  match es with
  | [] => Some w
  | e :: rest =>
      match step w e with
      | Some w' => run_events w' rest
      | None => None
      end
  end.

(** The states an instance can be in: mounted from some props, then any
    events the loop can deliver. *)
Inductive reachable : Instance -> Prop :=
| reach_mount (p : Props) : reachable (CodingExercise p)
| reach_step (w w' : Instance) (e : event) :
    reachable w -> step w e = Some w' -> reachable w'.

(** The requests sent so far, oldest first. *)
Fixpoint fetches (l : list action) : list request :=
  match l with
  | [] => []
  | Fetch rq :: rest => rq :: fetches rest
  | _ :: rest => fetches rest
  end.

(** How many handler runs ended with a rejected promise. *)
Fixpoint rejections (l : list action) : nat :=
  match l with
  | [] => 0
  | Settle false :: rest => S (rejections rest)
  | _ :: rest => rejections rest
  end.

(** The network submissions still outstanding: one per parked handler, from
    the call of [fetch] until the body has been read. *)
Definition outstanding (w : Instance) : nat := length (pending w).

(** What the user can do: type and click. *)
Definition user_event (e : event) : bool :=
  match e with
  | Change _ | Click => true
  | _ => false
  end.

(** The editor text after a run of user events. *)
Fixpoint last_change (txt : string) (es : list event) : string :=
  match es with
  | [] => txt
  | Change v :: rest => last_change v rest
  | _ :: rest => last_change txt rest
  end.

Open Scope list_scope.

(** ** One submission, start to finish *)

(** The setter calls a run of user events leaves in the log. *)
Fixpoint edits (es : list event) : list action :=
  match es with
  | [] => []
  | Change v :: rest => Set_ (setCode v) :: edits rest
  | _ :: rest => edits rest
  end.

(** A click, then the two promises settling in turn, with the user typing and
    clicking in between ([u1] while [fetch] is pending, [u2] while the body is
    read).  A rejected [fetch] ends the handler, so nothing follows it. *)
Definition submission (u1 : list event) (f : fetch_result)
  (u2 : list event) (b : body_result) : list event :=
  Click :: u1 ++ FetchSettled 0 f ::
    match f with
    | NetworkError => []
    | Responded _ => u2 ++ [BodySettled 0 b]
    end.

(** The user events that take place before the handler ends. *)
Definition typed (u1 : list event) (f : fetch_result) (u2 : list event)
  : list event :=
  match f with
  | NetworkError => u1
  | Responded _ => u1 ++ u2
  end.

(** The value line 69 stores, when the handler gets that far: [fetch] gave a
    response, its body was JSON, and the JSON was not [null]. *)
Definition stored (f : fetch_result) (b : body_result) : option value :=
  match f, b with
  | Responded _, Parsed j => get_feedback j
  | _, _ => None
  end.

(** The tail of the log once the handler has ended. *)
Definition closing (f : fetch_result) (b : body_result) : list action :=
  match stored f b with
  | Some v => [Set_ (setFeedback v); Set_ (setIsGrading false); Settle true]
  | None => [Settle false]
  end.

Definition is_change (e : event) : bool :=
  match e with
  | Change _ => true
  | _ => false
  end.

(** ** The end-to-end scenario *)

(** The props of the end-to-end scenario. *)
Definition scenario : Props :=
  {| initCode := Some "print('hi')";
     lesson := Some "lesson-1";
     correction := Some "def f(): pass" |}.

Definition no_props : Props :=
  {| initCode := None; lesson := None; correction := None |}.

(** The scenario's widget right after the click, the request in flight. *)
Definition scenario_in_flight : Instance :=
  run (handleSubmit "print('hi')" "lesson-1" "def f(): pass")
    (CodingExercise scenario).

Definition quoted (s : string) : string := (dquote ++ s ++ dquote)%string.

(** The body of the end-to-end scenario, character for character. *)
Definition scenario_body : string :=
  ("{" ++ quoted "code" ++ ":" ++ quoted "print('hi')" ++ ","
       ++ quoted "lesson" ++ ":" ++ quoted "lesson-1" ++ ","
       ++ quoted "correction" ++ ":" ++ quoted "def f(): pass" ++ "}")%string.

(** ** The shapes of a reachable instance *)

Definition in_flight (l : list suspended) : Prop :=
  l = [OnFetch after_fetch] \/ exists r, l = [OnJson r after_json].

(** Nothing parked and the flag down; one handler of [handleSubmit] parked
    and the flag up; or nothing parked, the flag up and one rejection behind. *)
Inductive shape (w : Instance) : Prop :=
| Quiet :
    pending w = [] -> isGrading (cells w) = false ->
    rejections (log w) = 0 -> shape w
| InFlight :
    in_flight (pending w) -> isGrading (cells w) = true ->
    rejections (log w) = 0 -> shape w
| Stuck :
    pending w = [] -> isGrading (cells w) = true ->
    rejections (log w) = 1 -> shape w.

(** The scenario's widget after [fetch] has rejected: the handler is gone,
    the flag is still up. *)
Definition scenario_failed : Instance :=
  run (after_fetch NetworkError) (unpark 0 scenario_in_flight).

(** What a step can be, in a state of one of the three shapes. *)
Inductive step_case (w : Instance) : event -> Instance -> Prop :=
| case_change (v : string) :
    step_case w (Change v) (call (setCode v) w)
| case_click_disabled :
    isGrading (cells w) = true -> step_case w Click w
| case_click :
    isGrading (cells w) = false -> pending w = [] ->
    step_case w Click
      (park (OnFetch after_fetch)
         (note (Fetch (grade_request (code (cells w))
                         (or_default (lesson (props w)) EmptyString)
                         (or_default (correction (props w)) EmptyString)))
            (call (setIsGrading true) w)))
| case_fetch (i : nat) (f : fetch_result) :
    pending w = [OnFetch after_fetch] -> isGrading (cells w) = true ->
    step_case w (FetchSettled i f) (run (after_fetch f) (unpark 0 w))
| case_body (i : nat) (b : body_result) (r : response) :
    pending w = [OnJson r after_json] -> isGrading (cells w) = true ->
    step_case w (BodySettled i b) (run (after_json b) (unpark 0 w)).

(** ** Reading a request body back *)

(** A test on every character of a string. *)
Fixpoint all_chars (p : ascii -> bool) (s : string) : bool :=
  match s with
  | EmptyString => true
  | String c rest => p c && all_chars p rest
  end.

(** Not one of the control characters U+0000 to U+001F. *)
Definition above_controls (c : ascii) : bool := (32 <=? nat_of_ascii c)%nat.

(** A character [QuoteJSONString] copies as it is: no control character, not
    the quote, not the backslash. *)
Definition plain (c : ascii) : bool :=
  above_controls c && negb (nat_of_ascii c =? 34)%nat
                   && negb (nat_of_ascii c =? 92)%nat.

(** A continuation byte of UTF-8, 80 to BF. *)
Definition continuation (c : ascii) : bool :=
  ((128 <=? nat_of_ascii c) && (nat_of_ascii c <=? 191))%nat.

(** The second byte allowed after the lead byte [n] of a three-byte or a
    four-byte sequence: E0 takes A0 to BF (no overlong form), ED takes 80 to
    9F (no surrogate), F0 takes 90 to BF, F4 takes 80 to 8F (nothing above
    U+10FFFF), every other lead any continuation byte. *)
Definition second_byte (n : nat) (c : ascii) : bool :=
  let m := nat_of_ascii c in
  (if n =? 224 then (160 <=? m) && (m <=? 191)
   else if n =? 237 then (128 <=? m) && (m <=? 159)
   else if n =? 240 then (144 <=? m) && (m <=? 191)
   else if n =? 244 then (128 <=? m) && (m <=? 143)
   else continuation c)%nat.

(** The bytes are the UTF-8 form of a sequence of Unicode scalar values: the
    strings of JavaScript that are well formed, those without a lone
    surrogate. *)
Fixpoint well_formed (s : string) : bool :=
  match s with
  | EmptyString => true
  | String a r =>
      let n := nat_of_ascii a in
      if (n <? 128)%nat then well_formed r
      else if ((194 <=? n) && (n <=? 223))%nat then
        match r with
        | String b r1 => continuation b && well_formed r1
        | _ => false
        end
      else if ((224 <=? n) && (n <=? 239))%nat then
        match r with
        | String b (String c r2) =>
            second_byte n b && continuation c && well_formed r2
        | _ => false
        end
      else if ((240 <=? n) && (n <=? 244))%nat then
        match r with
        | String b (String c (String d r3)) =>
            second_byte n b && continuation c && continuation d
            && well_formed r3
        | _ => false
        end
      else false
  end.

Definition push (c : ascii) (o : option (string * string))
  : option (string * string) :=
  match o with
  | Some (s, rest) => Some (String c s, rest)
  | None => None
  end.

Definition hex_value (c : ascii) : option nat :=
  let n := nat_of_ascii c in
  if ((48 <=? n) && (n <=? 57))%nat then Some (n - 48)
  else if ((97 <=? n) && (n <=? 102))%nat then Some (n - 87)
  else None.

(** The character a two-character escape stands for. *)
Definition unescape (e : ascii) : option ascii :=
  let n := nat_of_ascii e in
  if (n =? 98)%nat then Some (ascii_of_nat 8)
  else if (n =? 116)%nat then Some (ascii_of_nat 9)
  else if (n =? 110)%nat then Some (ascii_of_nat 10)
  else if (n =? 102)%nat then Some (ascii_of_nat 12)
  else if (n =? 114)%nat then Some (ascii_of_nat 13)
  else if (n =? 34)%nat then Some (ascii_of_nat 34)
  else if (n =? 92)%nat then Some (ascii_of_nat 92)
  else None.

(** Reads the inside of a string literal up to its closing quote: the text
    it stands for and what follows the quote.  It undoes the escapes
    [quote_char] writes and refuses the others. *)
Fixpoint read_chars (s : string) : option (string * string) :=
  match s with
  | EmptyString => None
  | String c rest =>
      if (nat_of_ascii c =? 34)%nat then Some (EmptyString, rest)
      else if (nat_of_ascii c =? 92)%nat then
        match rest with
        | String e rest1 =>
            if (nat_of_ascii e =? 117)%nat then
              match rest1 with
              | String z1 (String z2 (String h1 (String h2 rest2))) =>
                  match hex_value z1, hex_value z2, hex_value h1, hex_value h2 with
                  | Some 0, Some 0, Some a, Some b =>
                      push (ascii_of_nat (16 * a + b)) (read_chars rest2)
                  | _, _, _, _ => None
                  end
              | _ => None
              end
            else
              match unescape e with
              | Some d => push d (read_chars rest1)
              | None => None
              end
        | EmptyString => None
        end
      else push c (read_chars rest)
  end.

(** ** Counting what the log holds *)

(** How many handler runs have ended, either way. *)
Fixpoint settlements (l : list action) : nat :=
  match l with
  | [] => 0
  | Settle _ :: rest => S (settlements rest)
  | _ :: rest => settlements rest
  end.

(** ** Submissions in a row *)

(** One successful round: what the user does while [fetch] is pending, the
    response, what the user does while the body is read, the parsed body. *)
Definition round : Type := (list event * response * list event * json)%type.

Definition round_events (x : round) : list event :=
  let '(u1, r, u2, j) := x in submission u1 (Responded r) u2 (Parsed j).

(** The round has only user events in between, and its body is not [null]. *)
Definition round_ok (x : round) : bool :=
  let '(u1, r, u2, j) := x in
  forallb user_event u1 && forallb user_event u2 &&
  match get_feedback j with
  | Some _ => true
  | None => false
  end.

(** The feedback in the cell after the rounds, [fb] being there before. *)
Fixpoint last_feedback (fb : value) (l : list round) : value :=
  match l with
  | [] => fb
  | (_, _, _, j) :: rest =>
      last_feedback (match get_feedback j with
                     | Some v => v
                     | None => fb
                     end) rest
  end.

(** ** Bookkeeping lemmas *)

Lemma fetches_app (l l' : list action) :
  fetches (l ++ l') = fetches l ++ fetches l'.
Proof.
  induction l as [|a l IH]; simpl; [reflexivity|].
  destruct a; simpl; rewrite IH; reflexivity.
Qed.

Lemma rejections_app (l l' : list action) :
  rejections (l ++ l') = rejections l + rejections l'.
Proof.
  induction l as [|a l IH]; simpl; [reflexivity|].
  destruct a as [s|rq|[|]]; simpl; rewrite IH; reflexivity.
Qed.

Lemma run_events_app (w : Instance) (es es' : list event) :
  run_events w (es ++ es') =
  match run_events w es with
  | Some w' => run_events w' es'
  | None => None
  end.
Proof.
  revert w; induction es as [|e es IH]; intros w; simpl; [reflexivity|].
  destruct (step w e); [apply IH | reflexivity].
Qed.

Lemma run_events_cons (w : Instance) (e : event) (es : list event) :
  run_events w (e :: es) =
  match step w e with
  | Some w' => run_events w' es
  | None => None
  end.
Proof. reflexivity. Qed.

Lemma reachable_run_events (w w' : Instance) (es : list event) :
  reachable w -> run_events w es = Some w' -> reachable w'.
Proof.
  revert w; induction es as [|e es IH]; intros w Hw; simpl.
  - intros [= <-]; exact Hw.
  - destruct (step w e) as [w1|] eqn:E; [|discriminate].
    apply IH. exact (reach_step w w1 e Hw E).
Qed.

(** The click, in each of the two states of the button. *)
Lemma click_enabled (w : Instance) :
  isGrading (cells w) = false ->
  step w Click =
  Some (park (OnFetch after_fetch)
          (note (Fetch (grade_request (code (cells w))
                          (or_default (lesson (props w)) EmptyString)
                          (or_default (correction (props w)) EmptyString)))
             (call (setIsGrading true) w))).
Proof.
  intros H; unfold step, render; simpl; rewrite H; reflexivity.
Qed.

Lemma click_disabled (w : Instance) :
  isGrading (cells w) = true -> step w Click = Some w.
Proof.
  intros H; unfold step, render; simpl; rewrite H; reflexivity.
Qed.

Lemma mount_shape (p : Props) : shape (CodingExercise p).
Proof. apply Quiet; reflexivity. Qed.

Lemma in_flight_nth (l : list suspended) (i : nat) (s : suspended) :
  in_flight l -> nth_error l i = Some s -> i = 0 /\ l = [s].
Proof.
  intros [-> | [r ->]]; destruct i as [|[|i]]; simpl; intros [= <-];
    split; reflexivity.
Qed.

(** The only handler a promise can wake is the one [handleSubmit] parked. *)
Lemma fetch_settled_inv (w w' : Instance) (i : nat) (f : fetch_result) :
  shape w -> step w (FetchSettled i f) = Some w' ->
  pending w = [OnFetch after_fetch] /\ isGrading (cells w) = true /\
  rejections (log w) = 0 /\ w' = run (after_fetch f) (unpark 0 w).
Proof.
  intros Hs He. unfold step in He.
  destruct (nth_error (pending w) i) as [[next|r next]|] eqn:Hn;
    try discriminate.
  injection He as <-.
  destruct Hs as [Hp _ _|Hp Hg Hr|Hp _ _];
    try (rewrite Hp in Hn; destruct i; discriminate).
  destruct (in_flight_nth _ _ _ Hp Hn) as [-> Hl].
  destruct Hp as [Hp|[r Hp]]; rewrite Hp in Hl; [|discriminate].
  injection Hl as <-. repeat split; assumption.
Qed.

Lemma body_settled_inv (w w' : Instance) (i : nat) (b : body_result) :
  shape w -> step w (BodySettled i b) = Some w' ->
  (exists r, pending w = [OnJson r after_json]) /\
  isGrading (cells w) = true /\
  rejections (log w) = 0 /\ w' = run (after_json b) (unpark 0 w).
Proof.
  intros Hs He. unfold step in He.
  destruct (nth_error (pending w) i) as [[next|r next]|] eqn:Hn;
    try discriminate.
  injection He as <-.
  destruct Hs as [Hp _ _|Hp Hg Hr|Hp _ _];
    try (rewrite Hp in Hn; destruct i; discriminate).
  destruct (in_flight_nth _ _ _ Hp Hn) as [-> Hl].
  destruct Hp as [Hp|[r' Hp]]; rewrite Hp in Hl; [discriminate|].
  injection Hl as <- <-. repeat split; try assumption.
  exists r'; exact Hp.
Qed.

(** Closes a goal [shape w'] once the constructor is chosen: the three facts
    follow by computation from those on the state before. *)
Ltac shape_facts Hp Hg Hr :=
  cbn; unfold remove_nth; try rewrite Hp; cbn;
  rewrite ?rejections_app, ?Hr; try assumption; try reflexivity.

Lemma step_shape (w w' : Instance) (e : event) :
  shape w -> step w e = Some w' -> shape w'.
Proof.
  intros Hs He. destruct e as [v| |i f|i b].
  - (* Change *)
    injection He as <-.
    destruct Hs as [Hp Hg Hr|Hp Hg Hr|Hp Hg Hr];
      [apply Quiet|apply InFlight|apply Stuck]; shape_facts Hp Hg Hr.
  - (* Click *)
    destruct (isGrading (cells w)) eqn:Hg.
    + rewrite (click_disabled w Hg) in He. injection He as <-. exact Hs.
    + rewrite (click_enabled w Hg) in He. injection He as <-.
      destruct Hs as [Hp _ Hr|_ Hg' _|_ Hg' _]; try congruence.
      apply InFlight; [left| |]; shape_facts Hp Hg Hr.
  - (* FetchSettled *)
    destruct (fetch_settled_inv w w' i f Hs He) as (Hp & Hg & Hr & ->).
    destruct f as [|r].
    + apply Stuck; shape_facts Hp Hg Hr.
    + apply InFlight; [right; exists r| |]; shape_facts Hp Hg Hr.
  - (* BodySettled *)
    destruct (body_settled_inv w w' i b Hs He) as ([r Hp] & Hg & Hr & ->).
    unfold after_json.
    destruct b as [|j]; [|destruct (get_feedback j) as [v|]].
    + apply Stuck; shape_facts Hp Hg Hr.
    + apply Quiet; shape_facts Hp Hg Hr.
    + apply Stuck; shape_facts Hp Hg Hr.
Qed.

Lemma reachable_shape (w : Instance) : reachable w -> shape w.
Proof.
  induction 1 as [p|w w' e _ IH He]; [apply mount_shape|].
  exact (step_shape w w' e IH He).
Qed.

Lemma last_change_app (txt : string) (es es' : list event) :
  last_change txt (es ++ es') = last_change (last_change txt es) es'.
Proof.
  revert txt; induction es as [|e es IH]; intros txt; simpl; [reflexivity|].
  destruct e; apply IH.
Qed.

Lemma edits_app (es es' : list event) :
  edits (es ++ es') = edits es ++ edits es'.
Proof.
  induction es as [|e es IH]; simpl; [reflexivity|].
  destruct e; simpl; rewrite IH; reflexivity.
Qed.

Lemma fetches_edits (es : list event) : fetches (edits es) = [].
Proof.
  induction es as [|e es IH]; simpl; [reflexivity|].
  destruct e; simpl; exact IH.
Qed.

(** While the flag is up, typing changes the text and clicking does nothing. *)
Lemma busy_user_events (us : list event) :
  forallb user_event us = true ->
  forall (p : Props) (c : string) (fb : value) (pe : list suspended)
         (l : list action),
    run_events
      {| props := p;
         cells := {| code := c; isGrading := true; feedback := fb |};
         pending := pe; log := l |} us =
    Some {| props := p;
            cells := {| code := last_change c us; isGrading := true;
                        feedback := fb |};
            pending := pe; log := l ++ edits us |}.
Proof.
  induction us as [|e us IH]; intros Hu p c fb pe l; simpl.
  - rewrite app_nil_r; reflexivity.
  - simpl in Hu. apply andb_prop in Hu as [He Hu].
    destruct e as [v| |i f|i b]; try discriminate; simpl.
    + unfold call; simpl. rewrite (IH Hu), <- app_assoc. reflexivity.
    + apply (IH Hu).
Qed.

Lemma submission_run (w : Instance) (u1 : list event) (f : fetch_result)
  (u2 : list event) (b : body_result) :
  pending w = [] -> isGrading (cells w) = false ->
  forallb user_event u1 = true -> forallb user_event u2 = true ->
  run_events w (submission u1 f u2 b) =
  Some {| props := props w;
          cells :=
            {| code := last_change (code (cells w)) (typed u1 f u2);
               isGrading := match stored f b with
                            | Some _ => false
                            | None => true
                            end;
               feedback := match stored f b with
                           | Some v => v
                           | None => feedback (cells w)
                           end |};
          pending := [];
          log := log w
                 ++ [Set_ (setIsGrading true);
                     Fetch (grade_request (code (cells w))
                              (or_default (lesson (props w)) EmptyString)
                              (or_default (correction (props w)) EmptyString))]
                 ++ edits (typed u1 f u2) ++ closing f b |}.
Proof.
  intros Hp Hg H1 H2. unfold submission.
  rewrite run_events_cons, (click_enabled w Hg).
  destruct w as [p [c g fb] pe l]; simpl in Hp, Hg; subst pe g.
  unfold park, note, call; cbn [props cells pending log apply_setter code
                                  isGrading feedback app].
  rewrite run_events_app, (busy_user_events u1 H1), run_events_cons.
  destruct f as [|r].
  - cbn -[grade_request]. unfold note, unpark, remove_nth. cbn -[grade_request].
    rewrite <- !app_assoc. reflexivity.
  - cbn -[grade_request run_events].
    unfold park, unpark, remove_nth. cbn -[grade_request run_events].
    rewrite run_events_app, (busy_user_events u2 H2), run_events_cons.
    unfold closing, stored.
    destruct b as [|j]; [|cbn -[grade_request]; destruct (get_feedback j) as [v|]];
      cbn -[grade_request]; unfold note, call, unpark, remove_nth;
      cbn -[grade_request];
      rewrite last_change_app, edits_app, <- !app_assoc; reflexivity.
Qed.

Lemma phase_idle (c : Cells) : phase_of c = Idle <-> isGrading c = false.
Proof. unfold phase_of; destruct (isGrading c); split; congruence. Qed.

Lemma phase_submitting (c : Cells) :
  phase_of c = Submitting <-> isGrading c = true.
Proof. unfold phase_of; destruct (isGrading c); split; congruence. Qed.

Lemma idle_quiet (w : Instance) :
  reachable w -> isGrading (cells w) = false -> pending w = [].
Proof.
  intros Hr Hg.
  destruct (reachable_shape w Hr) as [Hp _ _|_ Hg' _|_ Hg' _]; congruence.
Qed.

(** With the flag up and nothing parked, no event brings the flag down, sends
    a request or touches the feedback. *)
Lemma stuck_forever (es : list event) :
  forall w w' : Instance,
    pending w = [] -> isGrading (cells w) = true ->
    run_events w es = Some w' ->
    pending w' = [] /\ isGrading (cells w') = true /\
    feedback (cells w') = feedback (cells w) /\
    fetches (log w') = fetches (log w).
Proof.
  induction es as [|e es IH]; intros w w' Hp Hg; simpl.
  - intros [= <-]; repeat split; assumption.
  - destruct e as [v| |i f|i b].
    + cbn [step]. intros H. apply IH in H; [|assumption|assumption].
      destruct H as (H1 & H2 & H3 & H4). repeat split; try assumption.
      rewrite H4. cbn [call log]. rewrite fetches_app, app_nil_r. reflexivity.
    + rewrite (click_disabled w Hg). apply IH; assumption.
    + cbn [step]. rewrite Hp. destruct i; discriminate.
    + cbn [step]. rewrite Hp. destruct i; discriminate.
Qed.

(** ** Failure paths (C1, C2) *)

(** C1, as the claim has it, fails: a transport error, or a body that is not
    JSON, ends [handleSubmit] with nothing outstanding and the widget still
    Submitting, its button disabled. *)
Lemma failed_submit_stays_submitting :
  option_map
    (fun w => (outstanding w, phase_of (cells w), button_disabled (render (cells w))))
    (run_events (CodingExercise scenario) (submission [] NetworkError [] Malformed))
  = Some (0, Submitting, true)
  /\
  option_map
    (fun w => (outstanding w, phase_of (cells w), button_disabled (render (cells w))))
    (run_events (CodingExercise scenario)
       (submission [] (Responded {| status := 200 |}) [] Malformed))
  = Some (0, Submitting, true).
Proof. split; reflexivity. Qed.

(** C1 (amended): once a submission started from Idle has resolved, nothing is
    outstanding; the widget is back in Idle exactly when [fetch] gave a
    response, of any status, whose body parsed to a JSON value other than
    [null]; when [fetch] rejects, the body is not JSON or it is [null], the
    handler rejects before the flag is cleared and the widget is Submitting
    after every later run of events. *)
Theorem submit_resolution (w : Instance) (u1 : list event) (f : fetch_result)
  (u2 : list event) (b : body_result) :
  reachable w -> phase_of (cells w) = Idle ->
  forallb user_event u1 = true -> forallb user_event u2 = true ->
  exists w' : Instance,
    run_events w (submission u1 f u2 b) = Some w' /\
    outstanding w' = 0 /\
    match stored f b with
    | Some _ => phase_of (cells w') = Idle
    | None =>
        forall (es : list event) (w'' : Instance),
          run_events w' es = Some w'' -> phase_of (cells w'') = Submitting
    end.
Proof.
  intros Hr Hi H1 H2. apply phase_idle in Hi.
  pose proof (submission_run w u1 f u2 b (idle_quiet w Hr Hi) Hi H1 H2) as Hrun.
  eexists; split; [exact Hrun|]. split; [reflexivity|].
  destruct (stored f b) as [v|]; [reflexivity|].
  intros es w'' Hes. apply phase_submitting.
  apply (stuck_forever es _ w'') in Hes; [|reflexivity|reflexivity].
  apply Hes.
Qed.

Lemma submit_resolution_witness :
  (exists w' : Instance,
     run_events (CodingExercise scenario)
       (submission [Change "x"; Click] (Responded {| status := 500 |}) [Click]
          (Parsed (JObj [("feedback", JStr "Looks good")]))) = Some w' /\
     outstanding w' = 0 /\
     phase_of (cells w') = Idle)
  /\
  (exists w' : Instance,
     run_events (CodingExercise scenario)
       (submission [Change "x"] NetworkError [] Malformed) = Some w' /\
     outstanding w' = 0 /\
     forall (es : list event) (w'' : Instance),
       run_events w' es = Some w'' -> phase_of (cells w'') = Submitting).
Proof.
  split.
  - exact (submit_resolution (CodingExercise scenario) [Change "x"; Click]
             (Responded {| status := 500 |}) [Click]
             (Parsed (JObj [("feedback", JStr "Looks good")]))
             (reach_mount scenario) eq_refl eq_refl eq_refl).
  - exact (submit_resolution (CodingExercise scenario) [Change "x"]
             NetworkError [] Malformed
             (reach_mount scenario) eq_refl eq_refl eq_refl).
Defined.

(** C2, as the claim has it, fails: after a submission that showed feedback, a
    second one that meets a transport error leaves the widget Submitting, the
    button disabled and labelled as while grading, and the earlier feedback
    still in the panel; the view holds nothing else. *)
Lemma failed_submit_keeps_old_view :
  option_map (fun w => (phase_of (cells w), render (cells w)))
    (run_events (CodingExercise scenario)
       (submission [] (Responded {| status := 200 |}) []
          (Parsed (JObj [("feedback", JStr "Looks good")]))
        ++ submission [] NetworkError [] Malformed))
  = Some (Submitting,
          {| editor_value := "print('hi')";
             button_disabled := true;
             button_label := "Grading...";
             feedback_slot := Panel (Of (JStr "Looks good")) |}).
Proof. reflexivity. Qed.

(** C2 (amended): when a submission started from Idle meets a transport error
    or a body that is not JSON (or is [null]), the handler rejects: the widget
    stays Submitting, the button stays disabled with its grading label, and
    the feedback slot shows what it showed before; no error is displayed.
    When the response, of whatever status (a non-success one included), has
    a JSON body other than [null], the status is ignored: the widget returns
    to Idle, the button is actionable again, and the slot shows the
    [feedback] member of the body. *)
Theorem failed_submit_view (w : Instance) (u1 : list event) (f : fetch_result)
  (u2 : list event) (b : body_result) :
  reachable w -> phase_of (cells w) = Idle ->
  forallb user_event u1 = true -> forallb user_event u2 = true ->
  exists w' : Instance,
    run_events w (submission u1 f u2 b) = Some w' /\
    match stored f b with
    | None =>
        phase_of (cells w') = Submitting /\
        button_disabled (render (cells w')) = true /\
        button_label (render (cells w')) = "Grading..."%string /\
        feedback_slot (render (cells w')) = feedback_slot (render (cells w))
    | Some v =>
        phase_of (cells w') = Idle /\
        button_disabled (render (cells w')) = false /\
        button_label (render (cells w')) = "Submit"%string /\
        feedback_slot (render (cells w')) = if truthy v then Panel v else Bare v
    end.
Proof.
  intros Hr Hi H1 H2. apply phase_idle in Hi.
  pose proof (submission_run w u1 f u2 b (idle_quiet w Hr Hi) Hi H1 H2) as Hrun.
  eexists; split; [exact Hrun|].
  destruct (stored f b) as [v|]; repeat split.
Qed.

Lemma failed_submit_view_witness :
  ok {| status := 500 |} = false
  /\
  (exists w' : Instance,
     run_events (CodingExercise scenario)
       (submission [] (Responded {| status := 500 |}) []
          (Parsed (JObj [("feedback", JStr "Internal Server Error")])))
     = Some w' /\
     phase_of (cells w') = Idle /\
     button_disabled (render (cells w')) = false /\
     button_label (render (cells w')) = "Submit"%string /\
     feedback_slot (render (cells w')) =
       Panel (Of (JStr "Internal Server Error")))
  /\
  (exists w' : Instance,
     run_events (CodingExercise scenario)
       (submission [] (Responded {| status := 200 |}) [] Malformed)
     = Some w' /\
     phase_of (cells w') = Submitting /\
     button_disabled (render (cells w')) = true /\
     button_label (render (cells w')) = "Grading..."%string /\
     feedback_slot (render (cells w')) = Bare (Of (JStr EmptyString))).
Proof.
  split; [reflexivity|]. split.
  - exact (failed_submit_view (CodingExercise scenario) []
             (Responded {| status := 500 |}) []
             (Parsed (JObj [("feedback", JStr "Internal Server Error")]))
             (reach_mount scenario) eq_refl eq_refl eq_refl).
  - exact (failed_submit_view (CodingExercise scenario) []
             (Responded {| status := 200 |}) [] Malformed
             (reach_mount scenario) eq_refl eq_refl eq_refl).
Defined.

(** ** One submission at a time (C3) *)

(** C3: in every reachable state at most one submission is outstanding; while
    one is, the widget is Submitting; and a click in the Submitting state
    leaves the instance as it is, its log of requests included. *)
Theorem at_most_one_outstanding (w : Instance) :
  reachable w ->
  outstanding w <= 1 /\
  (outstanding w = 1 -> phase_of (cells w) = Submitting) /\
  (phase_of (cells w) = Submitting -> step w Click = Some w).
Proof.
  intros Hr. unfold outstanding.
  destruct (reachable_shape w Hr) as [Hp Hg _|Hp Hg _|Hp Hg _].
  - rewrite Hp; simpl. repeat split; [lia|discriminate|].
    intros H; apply phase_submitting in H; congruence.
  - repeat split.
    + destruct Hp as [-> | [r ->]]; simpl; lia.
    + intros _; apply phase_submitting; exact Hg.
    + intros _; apply click_disabled; exact Hg.
  - rewrite Hp; simpl. repeat split; [lia|discriminate|].
    intros _; apply click_disabled; exact Hg.
Qed.

Lemma at_most_one_outstanding_witness :
  outstanding scenario_in_flight <= 1 /\
  phase_of (cells scenario_in_flight) = Submitting /\
  step scenario_in_flight Click = Some scenario_in_flight.
Proof.
  destruct (at_most_one_outstanding scenario_in_flight
              (reach_step (CodingExercise scenario) scenario_in_flight Click
                 (reach_mount scenario) eq_refl))
    as (Hle & Hone & Hclick).
  split; [exact Hle|].
  split; [exact (Hone eq_refl)|exact (Hclick (Hone eq_refl))].
Defined.

(** The guard is the button's [disabled] attribute alone: [handleSubmit]
    tests nothing, and run on a widget that is already Submitting (which no
    event of the loop does) it would send a second request. *)
Remark handleSubmit_tests_nothing :
  outstanding
    (run (handleSubmit "print('hi')" "lesson-1" "def f(): pass")
       scenario_in_flight) = 2.
Proof. reflexivity. Qed.

(** ** The request (C4) and the order of the steps (C5) *)

(** C4: a submission started from Idle sends, from the click to its
    resolution and whatever the outcome, exactly one request: a POST whose
    body is the JSON object with the members [code] (the editor text at the
    click), [lesson] and [correction], in that order, and no other; in the
    scenario the body is the one the claim spells out. *)
Theorem submit_sends_one_post :
  body (grade_request "print('hi')" "lesson-1" "def f(): pass") = scenario_body
  /\
  forall (w : Instance) (u1 : list event) (f : fetch_result)
         (u2 : list event) (b : body_result),
    reachable w -> phase_of (cells w) = Idle ->
    forallb user_event u1 = true -> forallb user_event u2 = true ->
    exists (w' : Instance) (rq : request),
      run_events w (submission u1 f u2 b) = Some w' /\
      fetches (log w') = fetches (log w) ++ [rq] /\
      url rq = "/api/grade"%string /\
      method rq = "POST"%string /\
      headers rq = [("Content-Type", "application/json")]%string /\
      body rq =
        JSON_stringify
          [("code", code (cells w));
           ("lesson", or_default (lesson (props w)) EmptyString);
           ("correction", or_default (correction (props w)) EmptyString)]%string.
Proof.
  split; [reflexivity|].
  intros w u1 f u2 b Hr Hi H1 H2. apply phase_idle in Hi.
  pose proof (submission_run w u1 f u2 b (idle_quiet w Hr Hi) Hi H1 H2) as Hrun.
  eexists.
  exists (grade_request (code (cells w))
            (or_default (lesson (props w)) EmptyString)
            (or_default (correction (props w)) EmptyString)).
  split; [exact Hrun|].
  split; [|repeat split].
  cbn [log]. rewrite !fetches_app, fetches_edits.
  cbn [fetches app]. f_equal.
  unfold closing; destruct (stored f b); reflexivity.
Qed.

Lemma submit_sends_one_post_witness :
  exists w' : Instance,
    run_events (CodingExercise scenario)
      (submission [] (Responded {| status := 200 |}) []
         (Parsed (JObj [("feedback", JStr "Looks good")]))) = Some w' /\
    fetches (log w') =
      [{| url := "/api/grade"; method := "POST"; body := scenario_body;
          headers := [("Content-Type", "application/json")] |}]%string /\
    feedback_slot (render (cells w')) = Panel (Of (JStr "Looks good")) /\
    phase_of (cells w') = Idle.
Proof.
  destruct submit_sends_one_post as [_ H].
  destruct (H (CodingExercise scenario) []
              (Responded {| status := 200 |}) []
              (Parsed (JObj [("feedback", JStr "Looks good")]))
              (reach_mount scenario) eq_refl eq_refl eq_refl)
    as (w' & rq & Hrun & _).
  exists w'. split; [exact Hrun|].
  injection Hrun as <-. repeat split.
Defined.



(** ** Mounting and editing (C6, C7, C10) *)

(** C6: mounted with a seed and two context strings, the widget holds the
    seed as its text, has the flag down (Idle), shows no feedback panel, and
    has sent nothing. *)
Theorem initialize_state (seed contextA contextB : string) :
  let w := CodingExercise {| initCode := Some seed;
                             lesson := Some contextA;
                             correction := Some contextB |} in
  code (cells w) = seed /\
  editor_value (render (cells w)) = seed /\
  isGrading (cells w) = false /\
  phase_of (cells w) = Idle /\
  panel_rendered (render (cells w)) = false /\
  outstanding w = 0 /\
  fetches (log w) = [].
Proof. repeat split. Qed.

(** C7: in any state, Idle or Submitting, an edit is accepted, makes the new
    string the text of the editor, and changes nothing else: the flag, the
    feedback, the parked handler, the props and the requests sent are as
    before. *)
Theorem edit_replaces_text (w : Instance) (v : string) :
  exists w' : Instance,
    step w (Change v) = Some w' /\
    code (cells w') = v /\
    editor_value (render (cells w')) = v /\
    isGrading (cells w') = isGrading (cells w) /\
    phase_of (cells w') = phase_of (cells w) /\
    feedback (cells w') = feedback (cells w) /\
    pending w' = pending w /\
    props w' = props w /\
    fetches (log w') = fetches (log w).
Proof.
  eexists; split; [reflexivity|]. repeat split.
  cbn [call log]. rewrite fetches_app, app_nil_r. reflexivity.
Qed.

(** C10: a prop that is not passed takes the empty string: without
    [initCode] the editor starts empty, and without [lesson] or [correction]
    the request of a click carries the empty string for that member. *)
Theorem omitted_props_default :
  (forall p : Props,
     initCode p = None -> code (cells (CodingExercise p)) = EmptyString) /\
  (forall w : Instance,
     phase_of (cells w) = Idle ->
     exists (w' : Instance) (rq : request),
       step w Click = Some w' /\
       fetches (log w') = fetches (log w) ++ [rq] /\
       (lesson (props w) = None ->
        body rq =
          JSON_stringify
            [("code", code (cells w)); ("lesson", EmptyString);
             ("correction", or_default (correction (props w)) EmptyString)]%string) /\
       (correction (props w) = None ->
        body rq =
          JSON_stringify
            [("code", code (cells w));
             ("lesson", or_default (lesson (props w)) EmptyString);
             ("correction", EmptyString)]%string)).
Proof.
  split.
  - intros p H. cbn. rewrite H. reflexivity.
  - intros w Hi. apply phase_idle in Hi.
    eexists. eexists. split; [exact (click_enabled w Hi)|].
    cbn [park note call log]. split.
    + rewrite !fetches_app. cbn [fetches]. rewrite app_nil_r. reflexivity.
    + split; intros ->; reflexivity.
Qed.

Lemma omitted_props_default_witness :
  code (cells (CodingExercise no_props)) = EmptyString /\
  exists w' : Instance,
    step (CodingExercise no_props) Click = Some w' /\
    map body (fetches (log w')) =
      [("{" ++ quoted "code" ++ ":" ++ quoted EmptyString ++ ","
            ++ quoted "lesson" ++ ":" ++ quoted EmptyString ++ ","
            ++ quoted "correction" ++ ":" ++ quoted EmptyString ++ "}")%string].
Proof.
  destruct omitted_props_default as [Hcode Hreq].
  split; [exact (Hcode no_props eq_refl)|].
  destruct (Hreq (CodingExercise no_props) eq_refl)
    as (w' & rq & Hstep & Hlog & Hlesson & _).
  exists w'. split; [exact Hstep|].
  rewrite Hlog. cbn [fetches log CodingExercise app map].
  rewrite (Hlesson eq_refl). reflexivity.
Defined.

(** ** The text and the panel (C8, C9) *)

(** C8: in a reachable state no event other than an edit changes the text (a
    click, and either promise of [handleSubmit] settling, write the flag and
    the feedback only), so after a submission the text is the one the user
    typed last, edits made while it was in flight included. *)
Theorem submit_keeps_text :
  (forall (w w' : Instance) (e : event),
     reachable w -> is_change e = false -> step w e = Some w' ->
     code (cells w') = code (cells w)) /\
  (forall (w : Instance) (u1 : list event) (f : fetch_result)
          (u2 : list event) (b : body_result),
     reachable w -> phase_of (cells w) = Idle ->
     forallb user_event u1 = true -> forallb user_event u2 = true ->
     exists w' : Instance,
       run_events w (submission u1 f u2 b) = Some w' /\
       code (cells w') = last_change (code (cells w)) (typed u1 f u2)).
Proof.
  split.
  - intros w w' e Hr Hc He.
    pose proof (reachable_shape w Hr) as Hs.
    destruct e as [v| |i f|i b]; [discriminate| | |].
    + destruct (isGrading (cells w)) eqn:Hg.
      * rewrite (click_disabled w Hg) in He. injection He as <-. reflexivity.
      * rewrite (click_enabled w Hg) in He. injection He as <-. reflexivity.
    + destruct (fetch_settled_inv w w' i f Hs He) as (_ & _ & _ & ->).
      destruct f; reflexivity.
    + destruct (body_settled_inv w w' i b Hs He) as (_ & _ & _ & ->).
      unfold after_json.
      destruct b as [|j]; [|destruct (get_feedback j)]; reflexivity.
  - intros w u1 f u2 b Hr Hi H1 H2. apply phase_idle in Hi.
    pose proof (submission_run w u1 f u2 b (idle_quiet w Hr Hi) Hi H1 H2)
      as Hrun.
    eexists; split; [exact Hrun|reflexivity].
Qed.

Lemma submit_keeps_text_witness :
  (exists w' : Instance,
     run_events (CodingExercise scenario)
       (submission [Change "print('bye')"] (Responded {| status := 200 |}) []
          (Parsed (JObj [("feedback", JStr "Looks good")]))) = Some w' /\
     code (cells w') = "print('bye')"%string)
  /\
  code (cells scenario_in_flight) = code (cells (CodingExercise scenario)).
Proof.
  destruct submit_keeps_text as [Hstep Hrun].
  split.
  - exact (Hrun (CodingExercise scenario) [Change "print('bye')"]
             (Responded {| status := 200 |}) []
             (Parsed (JObj [("feedback", JStr "Looks good")]))
             (reach_mount scenario) eq_refl eq_refl eq_refl).
  - exact (Hstep (CodingExercise scenario) scenario_in_flight Click
             (reach_mount scenario) eq_refl eq_refl).
Defined.

(** C9: the panel is rendered exactly when the stored feedback is truthy,
    which for a string is when it is not empty; and after a successful
    submission whose [feedback] member is the empty string the view is the
    one of a widget just mounted with the same text: no panel. *)
Theorem panel_iff_truthy :
  (forall c : Cells, panel_rendered (render c) = truthy (feedback c)) /\
  (forall (c : Cells) (s : string),
     feedback c = Of (JStr s) ->
     (panel_rendered (render c) = true <-> s <> EmptyString)) /\
  (forall (w : Instance) (u1 u2 : list event) (r : response) (j : json),
     reachable w -> phase_of (cells w) = Idle ->
     forallb user_event u1 = true -> forallb user_event u2 = true ->
     get_feedback j = Some (Of (JStr EmptyString)) ->
     exists w' : Instance,
       run_events w (submission u1 (Responded r) u2 (Parsed j)) = Some w' /\
       panel_rendered (render (cells w')) = false /\
       render (cells w') =
         render (cells (CodingExercise
                          {| initCode := Some (code (cells w'));
                             lesson := lesson (props w);
                             correction := correction (props w) |}))).
Proof.
  assert (Hp : forall c : Cells, panel_rendered (render c) = truthy (feedback c)).
  { intros c. unfold panel_rendered, render; cbn [feedback_slot].
    destruct (truthy (feedback c)); reflexivity. }
  split; [exact Hp|]. split.
  - intros c s Hf. rewrite Hp, Hf. cbn [truthy].
    rewrite negb_true_iff. split.
    + intros H ->. discriminate.
    + intros H. apply String.eqb_neq. exact H.
  - intros w u1 u2 r j Hr Hi H1 H2 Hv. apply phase_idle in Hi.
    pose proof (submission_run w u1 (Responded r) u2 (Parsed j)
                  (idle_quiet w Hr Hi) Hi H1 H2) as Hrun.
    eexists; split; [exact Hrun|].
    cbn [stored cells]. rewrite Hv. split; reflexivity.
Qed.

Lemma panel_iff_truthy_witness :
  (panel_rendered (render {| code := "x"; isGrading := false;
                             feedback := Of (JStr "Looks good") |}) = true
   <-> "Looks good"%string <> EmptyString)
  /\
  exists w' : Instance,
    run_events (CodingExercise scenario)
      (submission [] (Responded {| status := 200 |}) []
         (Parsed (JObj [("feedback", JStr EmptyString)]))) = Some w' /\
    panel_rendered (render (cells w')) = false /\
    render (cells w') = render (cells (CodingExercise scenario)).
Proof.
  destruct panel_iff_truthy as (_ & Hstr & Hempty).
  split.
  - exact (Hstr {| code := "x"; isGrading := false;
                   feedback := Of (JStr "Looks good") |} "Looks good"%string
             eq_refl).
  - destruct (Hempty (CodingExercise scenario) [] [] {| status := 200 |}
                (JObj [("feedback", JStr EmptyString)])
                (reach_mount scenario) eq_refl eq_refl eq_refl eq_refl)
      as (w' & Hrun & Hpanel & Hview).
    exists w'. split; [exact Hrun|]. split; [exact Hpanel|].
    rewrite Hview. injection Hrun as <-. reflexivity.
Defined.

(** ** The request body as JSON text *)

Lemma string_app_assoc (a b c : string) :
  ((a ++ b) ++ c)%string = (a ++ (b ++ c))%string.
Proof. induction a as [|x a IH]; simpl; [reflexivity|rewrite IH; reflexivity]. Qed.

Lemma string_length_app (a b : string) :
  String.length (a ++ b)%string = String.length a + String.length b.
Proof. induction a as [|x a IH]; simpl; [reflexivity|rewrite IH; reflexivity]. Qed.

Lemma all_chars_app (p : ascii -> bool) (a b : string) :
  all_chars p (a ++ b)%string = all_chars p a && all_chars p b.
Proof.
  induction a as [|x a IH]; simpl; [reflexivity|].
  rewrite IH, andb_assoc; reflexivity.
Qed.

(** Splits a goal about a character into the 256 characters. *)
Ltac each_ascii c := destruct c as [[] [] [] [] [] [] [] []].

Lemma read_quote_char (c : ascii) (rest : string) :
  read_chars (quote_char c ++ rest)%string = push c (read_chars rest).
Proof. each_ascii c; reflexivity. Qed.

Lemma read_quote_chars (s rest : string) :
  read_chars (quote_chars s ++ dquote ++ rest)%string = Some (s, rest).
Proof.
  induction s as [|c s IH]; [reflexivity|].
  cbn [quote_chars]. rewrite string_app_assoc, read_quote_char, IH.
  reflexivity.
Qed.

Lemma QuoteJSONString_app_inj (s s' rest rest' : string) :
  (QuoteJSONString s ++ rest)%string = (QuoteJSONString s' ++ rest')%string ->
  s = s' /\ rest = rest'.
Proof.
  unfold QuoteJSONString. rewrite !string_app_assoc. cbn [dquote append].
  intros [= H]. apply (f_equal read_chars) in H.
  change (String (ascii_of_nat 34) rest) with (dquote ++ rest)%string in H.
  change (String (ascii_of_nat 34) rest') with (dquote ++ rest')%string in H.
  rewrite !read_quote_chars in H. injection H as -> ->. split; reflexivity.
Qed.

Lemma QuoteJSONString_not_control (s : string) :
  all_chars above_controls (QuoteJSONString s) = true.
Proof.
  unfold QuoteJSONString. rewrite !all_chars_app.
  replace (all_chars above_controls (quote_chars s)) with true; [reflexivity|].
  induction s as [|c s IH]; [reflexivity|].
  cbn [quote_chars]. rewrite all_chars_app, <- IH, andb_true_r.
  each_ascii c; reflexivity.
Qed.

Lemma quote_char_length (c : ascii) :
  1 <= String.length (quote_char c) <= 6.
Proof. each_ascii c; split; apply Nat.leb_le; reflexivity. Qed.

Lemma string_cons_inj (a : ascii) (x y : string) :
  String a x = String a y -> x = y.
Proof. intros [= H]; exact H. Qed.

Lemma member_inj (key v v' rest rest' : string) :
  (QuoteJSONString key ++ ":" ++ QuoteJSONString v ++ rest)%string =
  (QuoteJSONString key ++ ":" ++ QuoteJSONString v' ++ rest')%string ->
  v = v' /\ rest = rest'.
Proof.
  intros H. apply QuoteJSONString_app_inj in H as [_ H].
  apply string_cons_inj in H. exact (QuoteJSONString_app_inj _ _ _ _ H).
Qed.

(** X1: the body of a request determines its three members: requests whose
    bodies are equal carry the same code, lesson and correction, so no text,
    whatever quotes, backslashes or control characters it holds, passes for
    another member list. *)
Theorem body_determines_members (c l k c' l' k' : string) :
  body (grade_request c l k) = body (grade_request c' l' k') ->
  c = c' /\ l = l' /\ k = k'.
Proof.
  unfold grade_request, JSON_stringify; cbn [body stringify_members].
  rewrite !string_app_assoc. intros H. apply string_cons_inj in H.
  apply member_inj in H as [-> H]. apply string_cons_inj in H.
  apply member_inj in H as [-> H]. apply string_cons_inj in H.
  apply member_inj in H as [-> _]. repeat split.
Qed.

Lemma body_determines_members_witness :
  "a\b"%string = "a\b"%string /\ dquote = dquote /\ EmptyString = EmptyString.
Proof.
  exact (body_determines_members "a\b" dquote EmptyString
           "a\b" dquote EmptyString eq_refl).
Defined.

(** X2: the body of a request holds no control character (none of U+0000 to
    U+001F): line breaks and tabs of the code travel as escapes, and the body
    is one line of text. *)
Theorem body_has_no_control_character (c l k : string) :
  all_chars above_controls (body (grade_request c l k)) = true.
Proof.
  unfold grade_request, JSON_stringify; cbn [body stringify_members].
  rewrite !all_chars_app, !QuoteJSONString_not_control. reflexivity.
Qed.

(** X3: a well-formed text (the UTF-8 form of Unicode scalar values, so with
    no lone surrogate) made of plain characters only (no control character,
    no quote, no backslash) is quoted by putting it between two quotes,
    unchanged. *)
Theorem plain_text_is_copied (s : string) :
  well_formed s = true -> all_chars plain s = true ->
  QuoteJSONString s = quoted s.
Proof.
  intros _ H. unfold QuoteJSONString, quoted. do 2 f_equal.
  induction s as [|c s IH]; [reflexivity|].
  cbn [all_chars] in H. apply andb_prop in H as [Hc Hs].
  cbn [quote_chars]. rewrite (IH Hs).
  revert Hc. each_ascii c; intros Hc; try discriminate Hc; reflexivity.
Qed.

Lemma plain_text_is_copied_witness :
  let s := ("d" ++ String (ascii_of_nat 195) (String (ascii_of_nat 169)
                     "f(): pass"))%string in
  QuoteJSONString s = quoted s.
Proof.
  exact (plain_text_is_copied
           ("d" ++ String (ascii_of_nat 195) (String (ascii_of_nat 169)
                      "f(): pass"))%string eq_refl eq_refl).
Defined.

(** X4: quoting a text adds the two quotes and at most five characters for
    each of its own: the quoted text is between [n + 2] and [6 n + 2]
    characters long, for a text of [n]. *)
Theorem QuoteJSONString_length (s : string) :
  String.length s + 2 <= String.length (QuoteJSONString s)
  <= 6 * String.length s + 2.
Proof.
  unfold QuoteJSONString. rewrite !string_length_app.
  change (String.length dquote) with 1.
  assert (H : String.length s <= String.length (quote_chars s)
              <= 6 * String.length s).
  { induction s as [|c s IH]; [simpl; lia|].
    cbn [quote_chars String.length]. rewrite string_length_app.
    pose proof (quote_char_length c). lia. }
  lia.
Qed.

(** ** Invariants of the event loop *)

Lemma settlements_app (l l' : list action) :
  settlements (l ++ l') = settlements l + settlements l'.
Proof.
  induction l as [|a l IH]; simpl; [reflexivity|].
  destruct a; simpl; rewrite IH; reflexivity.
Qed.

Lemma step_cases (w w' : Instance) (e : event) :
  shape w -> step w e = Some w' -> step_case w e w'.
Proof.
  intros Hs He. destruct e as [v| |i f|i b].
  - injection He as <-. constructor.
  - destruct (isGrading (cells w)) eqn:Hg.
    + rewrite (click_disabled w Hg) in He. injection He as <-.
      constructor; exact Hg.
    + rewrite (click_enabled w Hg) in He. injection He as <-.
      constructor; [exact Hg|].
      destruct Hs as [Hp _ _|_ Hg' _|_ Hg' _]; congruence.
  - destruct (fetch_settled_inv w w' i f Hs He) as (Hp & Hg & _ & ->).
    constructor; assumption.
  - destruct (body_settled_inv w w' i b Hs He) as ([r Hp] & Hg & _ & ->).
    econstructor; eassumption.
Qed.

Lemma reachable_step_case (w w' : Instance) (e : event) :
  reachable w -> step w e = Some w' -> step_case w e w'.
Proof. intros Hr; apply step_cases, reachable_shape, Hr. Qed.

Lemma scenario_in_flight_reachable : reachable scenario_in_flight.
Proof.
  exact (reach_step (CodingExercise scenario) scenario_in_flight Click
           (reach_mount scenario) eq_refl).
Defined.

Lemma scenario_failed_reachable : reachable scenario_failed.
Proof.
  exact (reach_step scenario_in_flight scenario_failed
           (FetchSettled 0 NetworkError) scenario_in_flight_reachable eq_refl).
Defined.

(** X5: in every reachable state the button is disabled exactly when a
    submission is outstanding or a handler run has rejected; and at most one
    run ever rejects. *)
Theorem disabled_iff_outstanding_or_rejected (w : Instance) :
  reachable w ->
  rejections (log w) <= 1 /\
  (button_disabled (render (cells w)) = true <->
   outstanding w = 1 \/ rejections (log w) = 1).
Proof.
  intros Hr. unfold outstanding. cbn [render button_disabled].
  destruct (reachable_shape w Hr) as [Hp Hg Hj|Hp Hg Hj|Hp Hg Hj];
    rewrite Hg, Hj.
  - rewrite Hp. split; [lia|]. split; [discriminate|].
    intros [H|H]; discriminate.
  - split; [lia|]. split; [|reflexivity]. intros _; left.
    destruct Hp as [-> | [r ->]]; reflexivity.
  - split; [lia|]. split; [|reflexivity]. intros _; right; reflexivity.
Qed.

Lemma disabled_iff_outstanding_or_rejected_witness :
  rejections (log scenario_failed) <= 1 /\
  (button_disabled (render (cells scenario_failed)) = true <->
   outstanding scenario_failed = 1 \/ rejections (log scenario_failed) = 1).
Proof.
  exact (disabled_iff_outstanding_or_rejected scenario_failed
           scenario_failed_reachable).
Defined.

(** X6: in every reachable state the requests sent are as many as the
    handler runs that have ended plus the submissions outstanding: every
    request belongs to one run of [handleSubmit]. *)
Theorem requests_are_accounted_for (w : Instance) :
  reachable w ->
  length (fetches (log w)) = settlements (log w) + outstanding w.
Proof.
  unfold outstanding. induction 1 as [p|w w' e Hr IH He]; [reflexivity|].
  destruct (reachable_step_case w w' e Hr He)
    as [v|Hg|Hg Hp|i f Hp Hg|i b r Hp Hg].
  - cbn [call log pending]. rewrite fetches_app, settlements_app.
    cbn. rewrite app_nil_r. lia.
  - exact IH.
  - cbn [park note call log pending].
    rewrite !fetches_app, !settlements_app, !length_app. cbn. lia.
  - rewrite Hp in IH. destruct f as [|r];
      cbn [after_fetch run note park unpark log pending];
      unfold remove_nth; rewrite Hp;
      rewrite ?fetches_app, ?settlements_app; cbn in *; rewrite ?app_nil_r; lia.
  - rewrite Hp in IH. unfold after_json.
    destruct b as [|j]; [|destruct (get_feedback j) as [v|]];
      cbn [run note call park unpark log pending];
      unfold remove_nth; rewrite Hp;
      rewrite ?fetches_app, ?settlements_app; cbn in *; rewrite ?app_nil_r; lia.
Qed.

Lemma requests_are_accounted_for_witness :
  length (fetches (log scenario_failed)) =
  settlements (log scenario_failed) + outstanding scenario_failed.
Proof.
  exact (requests_are_accounted_for scenario_failed scenario_failed_reachable).
Defined.

(** X7: once a handler run has rejected, the widget sends no further
    request, whatever happens next: the requests sent and the feedback stay
    as they are and the button stays disabled. *)
Theorem no_request_after_rejection (w w' : Instance) (es : list event) :
  reachable w -> rejections (log w) = 1 -> run_events w es = Some w' ->
  fetches (log w') = fetches (log w) /\
  feedback (cells w') = feedback (cells w) /\
  button_disabled (render (cells w')) = true.
Proof.
  intros Hr Hj Hes.
  destruct (reachable_shape w Hr) as [_ _ Hj'|_ _ Hj'|Hp Hg _];
    try congruence.
  destruct (stuck_forever es w w' Hp Hg Hes) as (_ & Hg' & Hf & Hl).
  repeat split; assumption.
Qed.

Lemma no_request_after_rejection_witness :
  exists w' : Instance,
    run_events scenario_failed [Click; Change "print('bye')"; Click] = Some w' /\
    fetches (log w') = fetches (log scenario_failed) /\
    feedback (cells w') = feedback (cells scenario_failed) /\
    button_disabled (render (cells w')) = true.
Proof.
  eexists. split; [reflexivity|].
  exact (no_request_after_rejection scenario_failed _
           [Click; Change "print('bye')"; Click]
           scenario_failed_reachable eq_refl eq_refl).
Defined.

Lemma step_keeps_props (w w' : Instance) (e : event) :
  reachable w -> step w e = Some w' -> props w' = props w.
Proof.
  intros Hr He.
  destruct (reachable_step_case w w' e Hr He)
    as [v|Hg|Hg Hp|i f Hp Hg|i b r Hp Hg]; try reflexivity.
  - destruct f; reflexivity.
  - unfold after_json.
    destruct b as [|j]; [|destruct (get_feedback j)]; reflexivity.
Qed.

(** Every request in the log was built by [handleSubmit] from the props. *)
Lemma sent_by_handleSubmit (w : Instance) (rq : request) :
  reachable w -> In rq (fetches (log w)) ->
  exists c : string,
    rq = grade_request c (or_default (lesson (props w)) EmptyString)
                         (or_default (correction (props w)) EmptyString).
Proof.
  intros Hr. revert rq.
  induction Hr as [p|w w' e Hr IH He]; intros rq Hin; [destruct Hin|].
  rewrite (step_keeps_props w w' e Hr He).
  destruct (reachable_step_case w w' e Hr He)
    as [v|Hg|Hg Hp|i f Hp Hg|i b r Hp Hg].
  - cbn [call log] in Hin. rewrite fetches_app, app_nil_r in Hin.
    exact (IH rq Hin).
  - exact (IH rq Hin).
  - cbn [park note call log] in Hin. rewrite !fetches_app in Hin.
    cbn [fetches app] in Hin. rewrite app_nil_r in Hin.
    apply in_app_or in Hin as [Hin|[<-|[]]]; [exact (IH rq Hin)|].
    eexists; reflexivity.
  - apply IH. destruct f;
      cbn [after_fetch run note park unpark log] in Hin;
      rewrite ?fetches_app, ?app_nil_r in Hin; exact Hin.
  - apply IH. unfold after_json in Hin.
    destruct b as [|j]; [|destruct (get_feedback j)];
      cbn [run note call park unpark log] in Hin;
      rewrite ?fetches_app in Hin; cbn [fetches] in Hin;
      rewrite ?app_nil_r in Hin; exact Hin.
Qed.

(** X8: every request a widget has ever sent is a POST to [/api/grade] with
    the JSON content type, and its body is the JSON object of some text with
    the [lesson] and [correction] of the props (the empty string for a prop
    not passed): only the [code] member varies from one request to the
    next. *)
Theorem every_request_is_a_grade_request (w : Instance) (rq : request) :
  reachable w -> In rq (fetches (log w)) ->
  url rq = "/api/grade"%string /\
  method rq = "POST"%string /\
  headers rq = [("Content-Type", "application/json")]%string /\
  exists c : string,
    body rq =
      JSON_stringify
        [("code", c);
         ("lesson", or_default (lesson (props w)) EmptyString);
         ("correction", or_default (correction (props w)) EmptyString)]%string.
Proof.
  intros Hr Hin. destruct (sent_by_handleSubmit w rq Hr Hin) as [c ->].
  repeat split. exists c. reflexivity.
Qed.

Lemma every_request_is_a_grade_request_witness :
  let rq := {| url := "/api/grade"; method := "POST"; body := scenario_body;
               headers := [("Content-Type", "application/json")] |}%string in
  url rq = "/api/grade"%string /\
  method rq = "POST"%string /\
  headers rq = [("Content-Type", "application/json")]%string /\
  exists c : string,
    body rq =
      JSON_stringify
        [("code", c); ("lesson", "lesson-1");
         ("correction", "def f(): pass")]%string.
Proof.
  exact (every_request_is_a_grade_request scenario_failed
           {| url := "/api/grade"; method := "POST"; body := scenario_body;
              headers := [("Content-Type", "application/json")] |}%string
           scenario_failed_reachable (or_introl eq_refl)).
Defined.

(** X9: the status of the response plays no part: from an Idle state, two
    submissions that differ only in the response [fetch] gave end in the same
    state. *)
Theorem status_is_ignored (w : Instance) (u1 u2 : list event)
  (r r' : response) (b : body_result) :
  reachable w -> phase_of (cells w) = Idle ->
  forallb user_event u1 = true -> forallb user_event u2 = true ->
  run_events w (submission u1 (Responded r) u2 b) =
  run_events w (submission u1 (Responded r') u2 b).
Proof.
  intros Hr Hi H1 H2. apply phase_idle in Hi.
  pose proof (idle_quiet w Hr Hi) as Hp.
  rewrite (submission_run w u1 (Responded r) u2 b Hp Hi H1 H2).
  rewrite (submission_run w u1 (Responded r') u2 b Hp Hi H1 H2).
  reflexivity.
Qed.

Lemma status_is_ignored_witness :
  run_events (CodingExercise scenario)
    (submission [] (Responded {| status := 200 |}) [Change "x"]
       (Parsed (JObj [("feedback", JStr "Looks good")]))) =
  run_events (CodingExercise scenario)
    (submission [] (Responded {| status := 503 |}) [Change "x"]
       (Parsed (JObj [("feedback", JStr "Looks good")]))).
Proof.
  exact (status_is_ignored (CodingExercise scenario) [] [Change "x"]
           {| status := 200 |} {| status := 503 |}
           (Parsed (JObj [("feedback", JStr "Looks good")]))
           (reach_mount scenario) eq_refl eq_refl eq_refl).
Defined.

(** X10: a body that is JSON but has no [feedback] to read (a number, a
    string, an array, an object without that member; anything but [null])
    counts as a success: [undefined] is stored over the earlier feedback, the
    panel is not rendered, and the widget is back in Idle. *)
Theorem missing_feedback_clears_panel (w : Instance) (u1 u2 : list event)
  (r : response) (j : json) :
  reachable w -> phase_of (cells w) = Idle ->
  forallb user_event u1 = true -> forallb user_event u2 = true ->
  j <> JNull ->
  (forall members, j = JObj members -> last_member "feedback" members = None) ->
  exists w' : Instance,
    run_events w (submission u1 (Responded r) u2 (Parsed j)) = Some w' /\
    feedback (cells w') = Undefined /\
    panel_rendered (render (cells w')) = false /\
    phase_of (cells w') = Idle.
Proof.
  intros Hr Hi H1 H2 Hn Hm. apply phase_idle in Hi.
  assert (Hv : get_feedback j = Some Undefined).
  { destruct j as [|b|n|s|items|members]; try reflexivity; [congruence|].
    cbn [get_feedback]. rewrite (Hm members eq_refl). reflexivity. }
  pose proof (submission_run w u1 (Responded r) u2 (Parsed j)
                (idle_quiet w Hr Hi) Hi H1 H2) as Hrun.
  eexists; split; [exact Hrun|].
  cbn [stored cells feedback]. rewrite Hv. repeat split.
Qed.

Lemma missing_feedback_clears_panel_witness :
  exists w' : Instance,
    run_events (CodingExercise scenario)
      (submission [] (Responded {| status := 200 |}) []
         (Parsed (JObj [("score", JNum 3)]))) = Some w' /\
    feedback (cells w') = Undefined /\
    panel_rendered (render (cells w')) = false /\
    phase_of (cells w') = Idle.
Proof.
  refine (missing_feedback_clears_panel (CodingExercise scenario) [] []
            {| status := 200 |} (JObj [("score", JNum 3)])
            (reach_mount scenario) eq_refl eq_refl eq_refl _ _).
  - discriminate.
  - intros members [= <-]. reflexivity.
Defined.

(** X11: in a reachable state only the body of the response settling changes
    the feedback or brings the flag down: typing, clicking and [fetch]
    settling leave the feedback shown as it is and a disabled button
    disabled. *)
Theorem only_the_body_ends_grading (w w' : Instance) (e : event) :
  reachable w -> step w e = Some w' ->
  match e with BodySettled _ _ => False | _ => True end ->
  feedback (cells w') = feedback (cells w) /\
  (isGrading (cells w) = true -> isGrading (cells w') = true).
Proof.
  intros Hr He Hb.
  destruct (reachable_step_case w w' e Hr He)
    as [v|Hg|Hg Hp|i f Hp Hg|i b r Hp Hg]; try (destruct Hb; fail).
  - split; [reflexivity|intros H; exact H].
  - split; [reflexivity|intros H; exact H].
  - split; reflexivity.
  - destruct f; split; try reflexivity; intros _; exact Hg.
Qed.

Lemma only_the_body_ends_grading_witness :
  exists w' : Instance,
    step scenario_in_flight (FetchSettled 0 (Responded {| status := 200 |}))
    = Some w' /\
    feedback (cells w') = feedback (cells scenario_in_flight) /\
    isGrading (cells w') = true.
Proof.
  eexists. split; [reflexivity|].
  destruct (only_the_body_ends_grading scenario_in_flight _
              (FetchSettled 0 (Responded {| status := 200 |}))
              scenario_in_flight_reachable eq_refl I) as [Hf Hg].
  split; [exact Hf|exact (Hg eq_refl)].
Defined.

Lemma rounds_run (l : list round) :
  forall w : Instance,
    pending w = [] -> isGrading (cells w) = false ->
    forallb round_ok l = true ->
    exists w' : Instance,
      run_events w (flat_map round_events l) = Some w' /\
      pending w' = [] /\ isGrading (cells w') = false /\
      length (fetches (log w')) = length (fetches (log w)) + length l /\
      feedback (cells w') = last_feedback (feedback (cells w)) l.
Proof.
  induction l as [|[[[u1 r] u2] j] l IH]; intros w Hp Hg Hok.
  - exists w. cbn. repeat split; try assumption. lia.
  - cbn [forallb round_ok] in Hok.
    apply andb_prop in Hok as [Hx Hl].
    apply andb_prop in Hx as [Hx Hj].
    apply andb_prop in Hx as [H1 H2].
    destruct (get_feedback j) as [v|] eqn:Hv; [|discriminate].
    pose proof (submission_run w u1 (Responded r) u2 (Parsed j) Hp Hg H1 H2)
      as Hrun.
    cbn [stored] in Hrun. unfold closing in Hrun. cbn [stored] in Hrun.
    rewrite Hv in Hrun.
    cbn [flat_map round_events]. rewrite run_events_app, Hrun.
    match goal with
    | |- exists _, run_events ?w1 _ = _ /\ _ =>
        destruct (IH w1 eq_refl eq_refl Hl) as (w' & Hrun' & Hp' & Hg' & Hn & Hf)
    end.
    exists w'. split; [exact Hrun'|]. repeat split; try assumption.
    + rewrite Hn. cbn [log]. rewrite !fetches_app, fetches_edits.
      cbn [fetches]. rewrite !length_app. cbn [length]. lia.
    + rewrite Hf. cbn [cells feedback last_feedback]. rewrite Hv. reflexivity.
Qed.

(** X12: successful submissions compose: started from Idle, [n] rounds in a
    row, each answered by a body other than [null], send exactly [n] requests
    and leave the widget Idle, nothing outstanding, holding the feedback of
    the last round. *)
Theorem rounds_in_a_row (w : Instance) (l : list round) :
  reachable w -> phase_of (cells w) = Idle ->
  forallb round_ok l = true ->
  exists w' : Instance,
    run_events w (flat_map round_events l) = Some w' /\
    length (fetches (log w')) = length (fetches (log w)) + length l /\
    outstanding w' = 0 /\
    phase_of (cells w') = Idle /\
    feedback (cells w') = last_feedback (feedback (cells w)) l.
Proof.
  intros Hr Hi Hok. apply phase_idle in Hi.
  destruct (rounds_run l w (idle_quiet w Hr Hi) Hi Hok)
    as (w' & Hrun & Hp & Hg & Hn & Hf).
  exists w'. split; [exact Hrun|]. split; [exact Hn|].
  unfold outstanding. rewrite Hp. split; [reflexivity|].
  split; [apply phase_idle; exact Hg|exact Hf].
Qed.

Lemma rounds_in_a_row_witness :
  exists w' : Instance,
    run_events (CodingExercise scenario)
      (flat_map round_events
         [([], {| status := 200 |}, [Change "print('bye')"],
           JObj [("feedback", JStr "Try again")]);
          ([Click], {| status := 200 |}, [],
           JObj [("feedback", JStr "Looks good")])]) = Some w' /\
    length (fetches (log w')) = 2 /\
    outstanding w' = 0 /\
    phase_of (cells w') = Idle /\
    feedback (cells w') = Of (JStr "Looks good").
Proof.
  exact (rounds_in_a_row (CodingExercise scenario)
           [([], {| status := 200 |}, [Change "print('bye')"],
             JObj [("feedback", JStr "Try again")]);
            ([Click], {| status := 200 |}, [],
             JObj [("feedback", JStr "Looks good")])]
           (reach_mount scenario) eq_refl eq_refl).
Defined.
